(** * distreqx: the diagonal linear bijector

    A shallow embedding of [distreqx/bijectors/diag_linear.py] together with
    the parts of the bijector stack it delegates to (the scalar affine
    bijector, the event-batching [Block] wrapper and the array runtime).

    Arrays hold real numbers: the embedding describes the exact arithmetic
    that the floating-point runtime approximates.  An array is a shape and a
    row-major buffer, as in the runtime.  What rounding does to the round
    trip is treated in [Rounded], and what overflow and underflow do to it
    in [Binary32]. *)

From Stdlib Require Import String ZArith SpecFloat Reals Lra Lia Arith Bool List.
Import ListNotations.

(** ** Exceptions and fallible computations *)

Inductive exn : Type :=
| ValueError (msg : string)
| IndexError
| SubstrateError.
(* [SubstrateError]: whatever the array runtime raises on operands whose
   shapes do not fit; its message is not part of this development. *)

Inductive result (A : Type) : Type :=
| Ok (a : A)
| Raise (e : exn).
Arguments Ok {A} a.
Arguments Raise {A} e.

Definition bind {A B : Type} (m : result A) (k : A -> result B) : result B :=
  match m with
  | Ok a => k a
  | Raise e => Raise e
  end.

Definition fmap {A B : Type} (f : A -> B) (m : result A) : result B :=
  bind m (fun a => Ok (f a)).

Declare Scope result_scope.
Delimit Scope result_scope with result.
Notation "x <- m ;; k" := (bind m (fun x => k))
  (at level 61, m at next level, right associativity) : result_scope.
Open Scope result_scope.

Fixpoint mapM {A B : Type} (f : A -> result B) (l : list A) : result (list B) :=
  match l with
  | [] => Ok []
  | a :: l' => b <- f a ;; bs <- mapM f l' ;; Ok (b :: bs)
  end.

(** ** The array runtime *)

Module Jnp.

Open Scope R_scope.

Record Array : Type := mkArray { shape : list nat; data : list R }.

(** Number of elements of an array of shape [s]. *)
Definition numel (s : list nat) : nat := fold_right Nat.mul 1%nat s.

Definition ndim (a : Array) : nat := length (shape a).

(** The runtime only builds arrays whose buffer fills their shape. *)
Definition well_formed (a : Array) : Prop :=
  length (data a) = numel (shape a).

(** [n] consecutive blocks of [size] elements of a buffer. *)
Definition chunks (size n : nat) (l : list R) : list (list R) :=
  map (fun i => firstn size (skipn (i * size) l)) (seq 0 n).

Definition zeros (s : list nat) : Array :=
  mkArray s (repeat 0 (numel s)).

Definition zeros_like (a : Array) : Array :=
  mkArray (shape a) (map (fun _ => 0) (data a)).

(** [a.shape[-1]] *)
Definition shape_last (a : Array) : result nat :=
  match rev (shape a) with
  | [] => Raise IndexError
  | d :: _ => Ok d
  end.

(** *** Broadcasting *)

(** Shapes are aligned on their last axis; the arguments are reversed shapes. *)
Fixpoint broadcast_rev (s1 s2 : list nat) : result (list nat) :=
  match s1, s2 with
  | [], s => Ok s
  | s, [] => Ok s
  | a :: s1', b :: s2' =>
      if (a =? b)%nat then fmap (cons a) (broadcast_rev s1' s2')
      else if (a =? 1)%nat then fmap (cons b) (broadcast_rev s1' s2')
      else if (b =? 1)%nat then fmap (cons a) (broadcast_rev s1' s2')
      else Raise SubstrateError
  end.

Definition broadcast_shapes (s1 s2 : list nat) : result (list nat) :=
  fmap (@rev nat) (broadcast_rev (rev s1) (rev s2)).

(** Buffer of an array of shape [sa] stretched to shape [st], both of the
    same rank: an axis of length 1 is repeated, any other must agree. *)
Fixpoint stretch (sa st : list nat) (d : list R) : result (list R) :=
  match sa, st with
  | [], [] => Ok d
  | ka :: sa', kt :: st' =>
      if (ka =? kt)%nat then
        fmap (@concat R) (mapM (stretch sa' st') (chunks (numel sa') ka d))
      else if (ka =? 1)%nat then
        fmap (fun r => concat (repeat r kt)) (stretch sa' st' d)
      else Raise SubstrateError
  | _, _ => Raise SubstrateError
  end.

Definition broadcast_to (a : Array) (target : list nat) : result Array :=
  if (ndim a <=? length target)%nat then
    let padded := repeat 1%nat (length target - ndim a) ++ shape a in
    d <- stretch padded target (data a) ;;
    Ok (mkArray target d)
  else Raise SubstrateError.

(** [m] copies of a buffer in a row, the buffer of [jnp.tile(d, m)]: what
    broadcasting a vector over [m] batch elements yields. *)
Definition tile (d : list R) (m : nat) : list R := concat (repeat d m).

(** *** Elementwise operations *)

Fixpoint zip_with (f : R -> R -> R) (l1 l2 : list R) : list R :=
  match l1, l2 with
  | a :: l1', b :: l2' => f a b :: zip_with f l1' l2'
  | _, _ => []
  end.

Definition binop (f : R -> R -> R) (x y : Array) : result Array :=
  s <- broadcast_shapes (shape x) (shape y) ;;
  x' <- broadcast_to x s ;;
  y' <- broadcast_to y s ;;
  Ok (mkArray s (zip_with f (data x') (data y'))).

Definition unop (f : R -> R) (x : Array) : Array :=
  mkArray (shape x) (map f (data x)).

Definition multiply : Array -> Array -> result Array := binop Rmult.
Definition add : Array -> Array -> result Array := binop Rplus.
Definition subtract : Array -> Array -> result Array := binop Rminus.
Definition divide : Array -> Array -> result Array := binop Rdiv.
Definition log : Array -> Array := unop ln.
Definition abs : Array -> Array := unop Rabs.
Definition negative : Array -> Array := unop Ropp.

(** *** Reductions *)

Definition total (l : list R) : R := fold_right Rplus 0 l.

(** [jnp.sum(a, axis=(-k, ..., -1))]: the last [k] axes are summed away. *)
Definition sum_last (k : nat) (a : Array) : result Array :=
  if (k <=? ndim a)%nat then
    let batch := firstn (ndim a - k) (shape a) in
    let event := skipn (ndim a - k) (shape a) in
    Ok (mkArray batch (map total (chunks (numel event) (numel batch) (data a))))
  else Raise SubstrateError.

(** *** Structure *)

(** [jnp.expand_dims(a, axis=0)] *)
Definition expand_dims0 (a : Array) : Array :=
  mkArray (1%nat :: shape a) (data a).

(** [a[0]] *)
Definition getitem0 (a : Array) : result Array :=
  match shape a with
  | [] => Raise IndexError
  | O :: _ => Raise IndexError
  | S _ :: rest => Ok (mkArray rest (firstn (numel rest) (data a)))
  end.

(** [jnp.diag(v)]: a vector becomes the square matrix carrying it on the
    main diagonal, a matrix yields its main diagonal. *)
Definition diag (v : Array) : result Array :=
  match shape v with
  | [n] =>
      Ok (mkArray [n; n]
            (flat_map (fun i =>
               map (fun j => if (i =? j)%nat then nth i (data v) 0 else 0)
                   (seq 0 n))
               (seq 0 n)))
  | [r; c] =>
      Ok (mkArray [Nat.min r c]
            (map (fun i => nth (i * c + i) (data v) 0) (seq 0 (Nat.min r c))))
  | _ => Raise (ValueError "diag input must be 1d or 2d")
  end.

(** [jax.vmap(f)(a)]: [f] is applied to every slice of [a] along axis 0 and
    the results are stacked along a new axis 0.  The shape of one result is
    read off the first slice, or off a slice of zeros when there is none. *)
Definition vmap (f : Array -> result Array) (a : Array) : result Array :=
  match shape a with
  | [] => Raise (ValueError "vmap: the mapped argument must have rank at least 1")
  | n :: rest =>
      outs <- mapM f (map (mkArray rest) (chunks (numel rest) n (data a))) ;;
      out_shape <- match outs with
                   | o :: _ => Ok (shape o)
                   | [] => fmap shape (f (zeros rest))
                   end ;;
      Ok (mkArray (n :: out_shape) (concat (map data outs)))
  end.

End Jnp.

(** ** The bijector contract *)

Module AbstractBijector.

(** The operations every bijector offers ([_bijector.py]). *)
Record t : Type := mk {
  forward : Jnp.Array -> result Jnp.Array;
  inverse : Jnp.Array -> result Jnp.Array;
  forward_log_det_jacobian : Jnp.Array -> result Jnp.Array;
  inverse_log_det_jacobian : Jnp.Array -> result Jnp.Array;
  forward_and_log_det : Jnp.Array -> result (Jnp.Array * Jnp.Array);
  inverse_and_log_det : Jnp.Array -> result (Jnp.Array * Jnp.Array)
}.

(** A Python tuple expression [(f(x), g(x))]: [f(x)] is evaluated first. *)
Definition tuple2 {A B : Type} (m1 : result A) (m2 : result B) : result (A * B) :=
  a <- m1 ;; b <- m2 ;; Ok (a, b).

End AbstractBijector.

(** ** The scalar affine bijector *)

Module ScalarAffine.

(** Modelled from the spec: the class [ScalarAffine] of [scalar_affine.py],
    which is not among the sources.  "forward(x) = x * scale + shift,
    broadcast elementwise". *)
Definition forward (shift scale x : Jnp.Array) : result Jnp.Array :=
  p <- Jnp.multiply x scale ;; Jnp.add p shift.

(** Modelled from the spec: [ScalarAffine.inverse], missing as above.
    "inverse(y) = (y - shift) / scale", with no check for a zero scale. *)
Definition inverse (shift scale y : Jnp.Array) : result Jnp.Array :=
  d <- Jnp.subtract y shift ;; Jnp.divide d scale.

(** Modelled from the spec: [ScalarAffine.forward_log_det_jacobian], missing
    as above.  "log(|scale|), broadcast to the shape of x". *)
Definition forward_log_det_jacobian (scale x : Jnp.Array) : result Jnp.Array :=
  Jnp.broadcast_to (Jnp.log (Jnp.abs scale)) (Jnp.shape x).

(** Modelled from the spec: [ScalarAffine.inverse_log_det_jacobian], missing
    as above.  "-log(|scale|)", one value per element of [y] as for the
    forward direction. *)
Definition inverse_log_det_jacobian (scale y : Jnp.Array) : result Jnp.Array :=
  Jnp.broadcast_to (Jnp.negative (Jnp.log (Jnp.abs scale))) (Jnp.shape y).

(** Modelled from the spec: the constructor [ScalarAffine(shift, scale)],
    missing as above; the fused operations are the contract's, a pair of the
    two individual calls. *)
Definition make (shift scale : Jnp.Array) : AbstractBijector.t :=
  AbstractBijector.mk
    (forward shift scale)
    (inverse shift scale)
    (forward_log_det_jacobian scale)
    (inverse_log_det_jacobian scale)
    (fun x => AbstractBijector.tuple2 (forward shift scale x)
                                      (forward_log_det_jacobian scale x))
    (fun y => AbstractBijector.tuple2 (inverse shift scale y)
                                      (inverse_log_det_jacobian scale y)).

End ScalarAffine.

(** ** The event-batching wrapper *)

Module Block.

(** Modelled from the spec: the class [Block] of [block.py], which is not
    among the sources.  "forward/inverse: delegate unchanged to the inner
    bijector"; the log-determinants are the inner ones summed "over the last
    ndims axes"; the fused variants "call the inner fused operation, then
    apply the same reduction to its Jacobian component". *)
Definition make (bijector : AbstractBijector.t) (ndims : nat) : AbstractBijector.t :=
  AbstractBijector.mk
    (fun x => AbstractBijector.forward bijector x)
    (fun y => AbstractBijector.inverse bijector y)
    (fun x => l <- AbstractBijector.forward_log_det_jacobian bijector x ;;
              Jnp.sum_last ndims l)
    (fun y => l <- AbstractBijector.inverse_log_det_jacobian bijector y ;;
              Jnp.sum_last ndims l)
    (fun x => yl <- AbstractBijector.forward_and_log_det bijector x ;;
              s <- Jnp.sum_last ndims (snd yl) ;;
              Ok (fst yl, s))
    (fun y => xl <- AbstractBijector.inverse_and_log_det bijector y ;;
              s <- Jnp.sum_last ndims (snd xl) ;;
              Ok (fst xl, s)).

End Block.

(** ** Python objects: identity and runtime class *)

(** An array object: the identity that [is] compares, and the array.  The
    runtime's arrays are immutable, so an identity never changes its value. *)
Record PyArray : Type := mkPyArray { ob_id : nat; ob_val : Jnp.Array }.

(** [a is b] *)
Definition py_is (a b : PyArray) : bool := (ob_id a =? ob_id b)%nat.

(** Allocation of array objects: the state is the next unused identity. *)
Definition Alloc (A : Type) : Type := nat -> A * nat.

Definition new_array (a : Jnp.Array) : Alloc PyArray :=
  fun next => (mkPyArray next a, S next).

(** The runtime classes of bijector objects. *)
Inductive PyClass : Type :=
| ClsDiagLinear
| ClsDerived (name : string)   (* a class that derives from [DiagLinear] *)
| ClsOther (name : string).    (* any other bijector class *)

Definition class_is (c1 c2 : PyClass) : bool :=
  match c1, c2 with
  | ClsDiagLinear, ClsDiagLinear => true
  | ClsDerived n1, ClsDerived n2 => String.eqb n1 n2
  | ClsOther n1, ClsOther n2 => String.eqb n1 n2
  | _, _ => false
  end.

(** [issubclass(c, DiagLinear)] *)
Definition issubclass_DiagLinear (c : PyClass) : bool :=
  match c with
  | ClsDiagLinear | ClsDerived _ => true
  | ClsOther _ => false
  end.

(** ** The diagonal linear bijector *)

Module DiagLinear.

Record t : Type := mk {
  _diag : PyArray;
  _bijector : AbstractBijector.t;
  _is_constant_jacobian : bool;
  _is_constant_log_det : bool;
  _event_dims : nat
}.

Definition __init__ (diag : PyArray) : result t :=
  if negb (Jnp.ndim (ob_val diag) =? 1)%nat then
    Raise (ValueError "`diag` must have one dimension.")
  else
    let bijector :=
      Block.make
        (ScalarAffine.make (Jnp.zeros_like (ob_val diag)) (ob_val diag))
        (Jnp.ndim (ob_val diag)) in
    event_dims <- Jnp.shape_last (ob_val diag) ;;
    Ok (mk diag bijector true true event_dims).

Definition forward (self : t) (x : Jnp.Array) : result Jnp.Array :=
  AbstractBijector.forward (_bijector self) x.

Definition inverse (self : t) (y : Jnp.Array) : result Jnp.Array :=
  AbstractBijector.inverse (_bijector self) y.

Definition forward_log_det_jacobian (self : t) (x : Jnp.Array) : result Jnp.Array :=
  AbstractBijector.forward_log_det_jacobian (_bijector self) x.

Definition inverse_log_det_jacobian (self : t) (y : Jnp.Array) : result Jnp.Array :=
  AbstractBijector.inverse_log_det_jacobian (_bijector self) y.

Definition inverse_and_log_det (self : t) (y : Jnp.Array)
  : result (Jnp.Array * Jnp.Array) :=
  AbstractBijector.inverse_and_log_det (_bijector self) y.

Definition forward_and_log_det (self : t) (x : Jnp.Array)
  : result (Jnp.Array * Jnp.Array) :=
  AbstractBijector.forward_and_log_det (_bijector self) x.

Definition diag (self : t) : PyArray := _diag self.

Definition matrix (self : t) : result Jnp.Array :=
  let expanded_diag := Jnp.expand_dims0 (ob_val (diag self)) in
  result <- Jnp.vmap Jnp.diag expanded_diag ;;
  Jnp.getitem0 result.

(** Modelled from the spec: the properties [is_constant_jacobian] and
    [is_constant_log_det] that [AbstractBijector] ([_bijector.py], not among
    the sources) defines over the two fields set by [__init__]. *)
Definition is_constant_jacobian (self : t) : bool := _is_constant_jacobian self.
Definition is_constant_log_det (self : t) : bool := _is_constant_log_det self.

(** A bijector object as [same_as] receives it: an instance of [DiagLinear]
    itself, of a class deriving from it (which inherits its fields), or of
    another bijector class. *)
Inductive Instance : Type :=
| Exactly (o : t)
| Derived (name : string) (o : t)
| Other (name : string) (o : AbstractBijector.t).

(** [type(other)] *)
Definition type_of (other : Instance) : PyClass :=
  match other with
  | Exactly _ => ClsDiagLinear
  | Derived name _ => ClsDerived name
  | Other name _ => ClsOther name
  end.

Definition same_as (self : t) (other : Instance) : bool :=
  if class_is (type_of other) ClsDiagLinear then
    match other with
    | Exactly o | Derived _ o => py_is (diag self) (diag o)
    | Other _ _ => false (* not reached: such an object has another class *)
    end
  else false.

(** *** Calls on an object

    Every public method and property of the class, and what a call leaves
    behind: the object after the call and the value returned.  No method body
    assigns to a field of [self], so the object after a call is [self]. *)
Inductive Call : Type :=
| CallForward (x : Jnp.Array)
| CallInverse (y : Jnp.Array)
| CallForwardLogDetJacobian (x : Jnp.Array)
| CallInverseLogDetJacobian (y : Jnp.Array)
| CallInverseAndLogDet (y : Jnp.Array)
| CallForwardAndLogDet (x : Jnp.Array)
| GetDiag
| GetMatrix
| GetIsConstantJacobian
| GetIsConstantLogDet
| CallSameAs (other : Instance).

Inductive Value : Type :=
| VArray (r : result Jnp.Array)
| VPair (r : result (Jnp.Array * Jnp.Array))
| VObject (o : PyArray)
| VBool (b : bool).

Definition call (self : t) (c : Call) : t * Value :=
  match c with
  | CallForward x => (self, VArray (forward self x))
  | CallInverse y => (self, VArray (inverse self y))
  | CallForwardLogDetJacobian x => (self, VArray (forward_log_det_jacobian self x))
  | CallInverseLogDetJacobian y => (self, VArray (inverse_log_det_jacobian self y))
  | CallInverseAndLogDet y => (self, VPair (inverse_and_log_det self y))
  | CallForwardAndLogDet x => (self, VPair (forward_and_log_det self x))
  | GetDiag => (self, VObject (diag self))
  | GetMatrix => (self, VArray (matrix self))
  | GetIsConstantJacobian => (self, VBool (is_constant_jacobian self))
  | GetIsConstantLogDet => (self, VBool (is_constant_log_det self))
  | CallSameAs other => (self, VBool (same_as self other))
  end.

(** The object after a sequence of calls, and the values they returned. *)
Fixpoint run (self : t) (cs : list Call) : t * list Value :=
  match cs with
  | [] => (self, [])
  | c :: cs' =>
      let (self1, v) := call self c in
      let (self2, vs) := run self1 cs' in
      (self2, v :: vs)
  end.

End DiagLinear.

(** ** A worked scenario

    The diagonal [2, -3, 0.5], stored in the array object of identity 7, the
    bijector [__init__] builds from it, and a batch of two vectors. *)

Module Scenario.

Open Scope R_scope.

Definition diag_array : Jnp.Array := Jnp.mkArray [3%nat] [2; -3; / 2].

Definition diag : PyArray := mkPyArray 7 diag_array.

Definition bijector : DiagLinear.t :=
  DiagLinear.mk diag
    (Block.make (ScalarAffine.make (Jnp.zeros_like diag_array) diag_array) 1)
    true true 3.

Definition x : Jnp.Array := Jnp.mkArray [2%nat; 3%nat] [1; 1; 1; 4; 5; 6].

(** A matrix is not a valid diagonal. *)
Definition square : PyArray :=
  mkPyArray 8 (Jnp.mkArray [2%nat; 2%nat] [1; 0; 0; 1]).

End Scenario.

(** ** Linear algebra and allocation, to state what the class documents *)

Module Linalg.

Open Scope R_scope.




End Linalg.

(** Array objects allocated one after the other. *)
Fixpoint new_arrays (contents : list Jnp.Array) : Alloc (list PyArray) :=
  fun next =>
    match contents with
    | [] => ([], next)
    | a :: rest =>
        let (o, next1) := new_array a next in
        let (os, next2) := new_arrays rest next1 in
        (o :: os, next2)
    end.

(** A second diagonal for the worked scenario, and an input whose last axis
    fits neither the diagonal nor broadcasting. *)
Module Scenario2.

Open Scope R_scope.

Definition diag : PyArray := mkPyArray 9 (Jnp.mkArray [3%nat] [4; 1; -2]).

Definition bijector : DiagLinear.t :=
  DiagLinear.mk diag
    (Block.make
       (ScalarAffine.make (Jnp.zeros_like (ob_val diag)) (ob_val diag)) 1)
    true true 3.


Definition misfit : Jnp.Array := Jnp.mkArray [2%nat; 2%nat] [1; 2; 3; 4].

(** A diagonal with a zero entry. *)
Definition singular : PyArray := mkPyArray 10 (Jnp.mkArray [2%nat] [3; 0]).

End Scenario2.

(** ** Floating-point evaluation

    The runtime computes in IEEE binary32.  Two views of that are used.

    [Rounded] is the standard model of floating-point arithmetic: as long as
    a result neither overflows nor underflows, an operation returns the exact
    result with a relative error of at most the unit roundoff [u], which is
    [2^-24] for binary32.  A rounded operation is therefore a relation
    between its operands and any result the runtime may return. *)

Module Rounded.

Section Roundoff.

Variable u : R.

(** [a] is [e] up to the relative tolerance [tol]. *)
Definition close (tol a e : R) : Prop := (Rabs (a - e) <= tol * Rabs e)%R.

(** [r] may be returned where the exact result is [exact]. *)
Definition rounds (exact r : R) : Prop := close u r exact.

Definition rounds_array (exact r : Jnp.Array) : Prop :=
  Jnp.shape r = Jnp.shape exact /\
  Forall2 rounds (Jnp.data exact) (Jnp.data r).

(** An elementwise operation of the runtime: broadcasting as in [Jnp.binop],
    every entry rounded. *)
Definition binop (f : R -> R -> R) (x y r : Jnp.Array) : Prop :=
  exists exact, Jnp.binop f x y = Ok exact /\ rounds_array exact r.

(** Modelled from the spec: [ScalarAffine.forward] and
    [ScalarAffine.inverse] as in [ScalarAffine] above, "x * scale + shift"
    and "(y - shift) / scale", each of the two operations rounded. *)
Definition scalar_affine_forward (shift scale x y : Jnp.Array) : Prop :=
  exists p, binop Rmult x scale p /\ binop Rplus p shift y.

Definition scalar_affine_inverse (shift scale y x : Jnp.Array) : Prop :=
  exists d, binop Rminus y shift d /\ binop Rdiv d scale x.

(** [DiagLinear.forward] and [DiagLinear.inverse]: the bijector [__init__]
    stores is [Block(ScalarAffine(zeros_like(diag), diag))], and [Block]
    hands both operations to the bijector it wraps. *)
Definition forward (self : DiagLinear.t) (x y : Jnp.Array) : Prop :=
  scalar_affine_forward (Jnp.zeros_like (ob_val (DiagLinear.diag self)))
                        (ob_val (DiagLinear.diag self)) x y.

Definition inverse (self : DiagLinear.t) (y x : Jnp.Array) : Prop :=
  scalar_affine_inverse (Jnp.zeros_like (ob_val (DiagLinear.diag self)))
                        (ob_val (DiagLinear.diag self)) y x.

(** [a] is [e] entry by entry, up to the relative tolerance [tol]. *)
Definition allclose (tol : R) (a e : Jnp.Array) : Prop :=
  Jnp.shape a = Jnp.shape e /\ Forall2 (close tol) (Jnp.data a) (Jnp.data e).

End Roundoff.

End Rounded.

(** [Binary32] evaluates the same arithmetic on binary32 numbers themselves,
    overflow and underflow included, for one vector. *)

Module Binary32.

Definition prec : Z := 24%Z.
Definition emax : Z := 128%Z.

Definition mul : spec_float -> spec_float -> spec_float := SFmul prec emax.
Definition add : spec_float -> spec_float -> spec_float := SFadd prec emax.
Definition sub : spec_float -> spec_float -> spec_float := SFsub prec emax.
Definition div : spec_float -> spec_float -> spec_float := SFdiv prec emax.

Definition zero : spec_float := S754_zero false.


Fixpoint zip_with (f : spec_float -> spec_float -> spec_float)
    (l1 l2 : list spec_float) : list spec_float :=
  match l1, l2 with
  | a :: l1', b :: l2' => f a b :: zip_with f l1' l2'
  | _, _ => []
  end.

(** Modelled from the spec: [ScalarAffine.forward] and
    [ScalarAffine.inverse], "x * scale + shift" and "(y - shift) / scale",
    on one vector [x] as long as [diag], with [scale = diag] and the shift
    [zeros_like(diag)] that [DiagLinear.__init__] passes. *)
Definition forward (diag x : list spec_float) : list spec_float :=
  zip_with (fun xi di => add (mul xi di) zero) x diag.

Definition inverse (diag y : list spec_float) : list spec_float :=
  zip_with (fun yi di => div (sub yi zero) di) y diag.

(** [|a - e| <= rtol * |e|] for every entry, computed in binary32. *)
Fixpoint allclose (rtol : spec_float) (a e : list spec_float) : bool :=
  match a, e with
  | [], [] => true
  | ai :: a', ei :: e' =>
      SFleb (SFabs (sub ai ei)) (mul rtol (SFabs ei)) && allclose rtol a' e'
  | _, _ => false
  end.

(** The binary32 numbers nearest to [1e30], [1e-30] and [1e-5]. *)
Definition f1e30 : spec_float := S754_finite false 13234890 76.
Definition f1e_5 : spec_float := S754_finite false 10995116 (-40).

End Binary32.

(** * Properties *)

(** ** Fallible computations *)

Lemma mapM_fixes {A : Type} (f : A -> result A) (l : list A) :
  (forall a, In a l -> f a = Ok a) -> mapM f l = Ok l.
Proof.
  induction l as [|a l IH]; intros Hf; simpl; [reflexivity|].
  rewrite (Hf a (or_introl eq_refl)); simpl.
  rewrite IH by (intros; apply Hf; right; assumption).
  reflexivity.
Qed.

(** ** Buffers *)

Section Buffers.

Import Jnp.
Open Scope nat_scope.

Lemma chunks_succ (size n : nat) (l : list R) :
  chunks size (S n) l = firstn size l :: chunks size n (skipn size l).
Proof.
  unfold chunks. rewrite <- cons_seq, <- seq_shift, map_cons, map_map.
  f_equal. apply map_ext; intros i.
  rewrite skipn_skipn. do 2 f_equal. simpl; lia.
Qed.

Lemma concat_chunks (size n : nat) (l : list R) :
  length l = n * size -> concat (chunks size n l) = l.
Proof.
  revert l; induction n as [|n IH]; intros l Hl.
  - destruct l; [reflexivity | discriminate].
  - rewrite chunks_succ; simpl. rewrite IH.
    + apply firstn_skipn.
    + rewrite length_skipn. simpl in Hl. lia.
Qed.

Lemma chunks_length (size n : nat) (l c : list R) :
  length l = n * size -> In c (chunks size n l) -> length c = size.
Proof.
  intros Hl Hin. unfold chunks in Hin. apply in_map_iff in Hin.
  destruct Hin as [i [<- Hi]]. apply in_seq in Hi.
  rewrite length_firstn, length_skipn. nia.
Qed.

Lemma chunks_one (size : nat) (l : list R) :
  length l = size -> chunks size 1 l = [l].
Proof.
  intros <-. unfold chunks; simpl. rewrite firstn_all. reflexivity.
Qed.

Lemma chunks_tile (d : list R) (m : nat) :
  chunks (length d) m (tile d m) = repeat d m.
Proof.
  induction m as [|m IH]; [reflexivity|].
  rewrite chunks_succ. unfold tile in *; simpl.
  rewrite firstn_app, firstn_all, Nat.sub_diag, firstn_O, app_nil_r.
  rewrite skipn_app, skipn_all, Nat.sub_diag, skipn_O. simpl.
  rewrite IH. reflexivity.
Qed.

Lemma tile_length (d : list R) (m : nat) :
  length (tile d m) = m * length d.
Proof.
  unfold tile. induction m as [|m IH]; simpl; [reflexivity|].
  rewrite length_app, IH. reflexivity.
Qed.

Lemma tile_one (d : list R) : tile d 1 = d.
Proof. unfold tile; simpl. apply app_nil_r. Qed.

Lemma tile_tile (d : list R) (m k : nat) :
  concat (repeat (tile d m) k) = tile d (k * m).
Proof.
  unfold tile. induction k as [|k IH]; simpl; [reflexivity|].
  rewrite IH, repeat_app, concat_app. reflexivity.
Qed.

Lemma tile_map (f : R -> R) (d : list R) (m : nat) :
  tile (map f d) m = map f (tile d m).
Proof.
  unfold tile. rewrite concat_map, map_repeat. reflexivity.
Qed.

Lemma tile_Forall (P : R -> Prop) (d : list R) (m : nat) :
  Forall P d -> Forall P (tile d m).
Proof.
  intros Hd. unfold tile. induction m as [|m IH]; simpl.
  - constructor.
  - apply Forall_app; split; assumption.
Qed.

Lemma tile_nth (d : list R) (m i : nat) :
  i < m * length d -> nth i (tile d m) 0%R = nth (i mod length d) d 0%R.
Proof.
  revert i; induction m as [|m IH]; intros i Hi; [lia|].
  unfold tile in *; simpl.
  destruct (Nat.lt_ge_cases i (length d)) as [Hlt|Hge].
  - rewrite app_nth1 by assumption. rewrite Nat.mod_small by assumption.
    reflexivity.
  - rewrite app_nth2 by assumption. rewrite IH by (simpl in Hi; lia).
    f_equal.
    replace i with ((i - length d) + 1 * length d) at 2 by lia.
    rewrite Nat.Div0.mod_add. reflexivity.
Qed.

End Buffers.

(** ** Broadcasting a vector over batch axes *)

Section Broadcasting.

Import Jnp.
Open Scope nat_scope.

Lemma numel_app (s1 s2 : list nat) : numel (s1 ++ s2) = numel s1 * numel s2.
Proof.
  induction s1 as [|k s1 IH]; simpl; [lia|]. rewrite IH. lia.
Qed.

Lemma numel_vector (n : nat) : numel [n] = n.
Proof. simpl. lia. Qed.

Lemma numel_ones (n : nat) : numel (repeat 1 n) = 1.
Proof. induction n as [|n IH]; simpl; [reflexivity|]. rewrite IH. reflexivity. Qed.

Lemma stretch_same (s : list nat) :
  forall d, length d = numel s -> stretch s s d = Ok d.
Proof.
  induction s as [|k s IH]; intros d Hd; simpl; [reflexivity|].
  rewrite Nat.eqb_refl. simpl in Hd.
  rewrite mapM_fixes.
  - simpl. rewrite concat_chunks by assumption. reflexivity.
  - intros c Hc. apply IH. eapply chunks_length; eassumption.
Qed.

Lemma stretch_vector (batch : list nat) (d : list R) :
  stretch (repeat 1 (length batch) ++ [length d]) (batch ++ [length d]) d
  = Ok (tile d (numel batch)).
Proof.
  induction batch as [|k batch IH].
  - simpl app. rewrite stretch_same by (rewrite numel_vector; reflexivity).
    simpl numel. rewrite tile_one. reflexivity.
  - cbn [length repeat app stretch numel fold_right].
    fold (numel batch).
    destruct (1 =? k) eqn:Hk.
    + apply Nat.eqb_eq in Hk; subst k.
      rewrite chunks_one
        by (fold (numel (repeat 1 (length batch) ++ [length d]));
            rewrite numel_app, numel_ones, numel_vector; lia).
      cbn [mapM]. rewrite IH. simpl. rewrite app_nil_r.
      rewrite Nat.add_0_r. reflexivity.
    + rewrite IH. simpl. rewrite tile_tile. reflexivity.
Qed.

Lemma broadcast_to_same (a : Array) :
  well_formed a -> broadcast_to a (shape a) = Ok a.
Proof.
  intros Hwf. unfold broadcast_to, ndim.
  rewrite Nat.leb_refl, Nat.sub_diag. simpl.
  rewrite stretch_same by assumption. destruct a; reflexivity.
Qed.

Lemma broadcast_to_vector (v : Array) (batch : list nat) :
  shape v = [length (data v)] ->
  broadcast_to v (batch ++ [length (data v)])
  = Ok (mkArray (batch ++ [length (data v)]) (tile (data v) (numel batch))).
Proof.
  intros Hs. unfold broadcast_to, ndim. rewrite Hs, length_app.
  simpl length. replace (1 <=? length batch + 1) with true
    by (symmetry; apply Nat.leb_le; lia).
  replace (length batch + 1 - 1) with (length batch) by lia.
  rewrite stretch_vector. reflexivity.
Qed.

Lemma broadcast_rev_nil_r (s : list nat) : broadcast_rev s [] = Ok s.
Proof. destruct s; reflexivity. Qed.

Lemma broadcast_shapes_batch_vector (batch : list nat) (n : nat) :
  broadcast_shapes (batch ++ [n]) [n] = Ok (batch ++ [n]).
Proof.
  unfold broadcast_shapes. rewrite rev_unit. cbn [rev app broadcast_rev].
  rewrite Nat.eqb_refl, broadcast_rev_nil_r. simpl.
  rewrite rev_involutive. reflexivity.
Qed.

Lemma broadcast_shapes_vector_batch (batch : list nat) (n : nat) :
  broadcast_shapes [n] (batch ++ [n]) = Ok (batch ++ [n]).
Proof.
  unfold broadcast_shapes. rewrite rev_unit. simpl.
  rewrite Nat.eqb_refl. simpl. rewrite rev_involutive. reflexivity.
Qed.

(** An operation between a batch of vectors and one vector pairs every
    vector of the batch with that vector. *)
Lemma binop_batch_vector (f : R -> R -> R) (x v : Array) (batch : list nat) :
  well_formed x ->
  shape v = [length (data v)] ->
  shape x = batch ++ [length (data v)] ->
  binop f x v
  = Ok (mkArray (shape x) (zip_with f (data x) (tile (data v) (numel batch)))).
Proof.
  intros Hwf Hv Hx. unfold binop.
  rewrite Hx at 1. rewrite Hv at 1. rewrite broadcast_shapes_batch_vector.
  cbn [bind]. rewrite <- Hx at 1. rewrite broadcast_to_same by assumption.
  cbn [bind]. rewrite broadcast_to_vector by assumption.
  cbn [bind data]. rewrite Hx. reflexivity.
Qed.

Lemma binop_vector_batch (f : R -> R -> R) (x v : Array) (batch : list nat) :
  well_formed x ->
  shape v = [length (data v)] ->
  shape x = batch ++ [length (data v)] ->
  binop f v x
  = Ok (mkArray (shape x) (zip_with f (tile (data v) (numel batch)) (data x))).
Proof.
  intros Hwf Hv Hx. unfold binop.
  rewrite Hx at 1. rewrite Hv at 1. rewrite broadcast_shapes_vector_batch.
  cbn [bind]. rewrite broadcast_to_vector by assumption.
  cbn [bind]. rewrite <- Hx at 1. rewrite broadcast_to_same by assumption.
  cbn [bind data]. rewrite Hx. reflexivity.
Qed.

End Broadcasting.

(** ** Elementwise arithmetic on buffers *)

Section Pointwise.

Import Jnp.
Open Scope R_scope.

Lemma zip_with_length (f : R -> R -> R) (l1 l2 : list R) :
  length (zip_with f l1 l2) = Nat.min (length l1) (length l2).
Proof.
  revert l2; induction l1 as [|a l1 IH]; intros [|b l2]; simpl; auto.
Qed.

Lemma zip_with_nth (f : R -> R -> R) (l1 l2 : list R) (i : nat) :
  (i < length l1)%nat -> (i < length l2)%nat ->
  nth i (zip_with f l1 l2) 0 = f (nth i l1 0) (nth i l2 0).
Proof.
  revert l2 i; induction l1 as [|a l1 IH]; intros [|b l2] [|i] H1 H2;
    simpl in *; try lia; [reflexivity|].
  apply IH; lia.
Qed.

(** A zero shift leaves the scaled buffer as it is. *)
Lemma scale_then_zero_shift (xs ts : list R) :
  zip_with Rplus (zip_with Rmult xs ts) (map (fun _ => 0) ts)
  = zip_with Rmult ts xs.
Proof.
  revert ts; induction xs as [|x xs IH]; intros [|t ts]; simpl;
    try reflexivity.
  rewrite IH. f_equal. lra.
Qed.

Lemma zero_shift_then_unscale (ys ts : list R) :
  zip_with Rdiv (zip_with Rminus ys (map (fun _ => 0) ts)) ts
  = zip_with Rdiv ys ts.
Proof.
  revert ts; induction ys as [|y ys IH]; intros [|t ts]; simpl;
    try reflexivity.
  rewrite IH. f_equal. lra.
Qed.

Lemma unscale_scale (xs ts : list R) :
  Forall (fun t => t <> 0) ts -> length xs = length ts ->
  zip_with Rdiv (zip_with Rmult ts xs) ts = xs.
Proof.
  intros Hts; revert xs; induction Hts as [|t ts Ht Hts IH];
    intros [|x xs] Hlen; simpl in *; try discriminate; [reflexivity|].
  rewrite IH by congruence. f_equal. field. assumption.
Qed.

Lemma scale_unscale (ys ts : list R) :
  Forall (fun t => t <> 0) ts -> length ys = length ts ->
  zip_with Rmult ts (zip_with Rdiv ys ts) = ys.
Proof.
  intros Hts; revert ys; induction Hts as [|t ts Ht Hts IH];
    intros [|y ys] Hlen; simpl in *; try discriminate; [reflexivity|].
  rewrite IH by congruence. f_equal. field. assumption.
Qed.

Lemma total_opp (l : list R) : total (map Ropp l) = - total l.
Proof.
  induction l as [|a l IH]; simpl; [lra|]. rewrite IH. lra.
Qed.

End Pointwise.

(** ** What construction establishes *)

Section Constructed.

Import Jnp.

Variable diag : PyArray.
Variable b : DiagLinear.t.
Hypothesis Hinit : DiagLinear.__init__ diag = Ok b.

Lemma init_shape : exists n : nat, shape (ob_val diag) = [n].
Proof.
  unfold DiagLinear.__init__ in Hinit.
  destruct (ndim (ob_val diag) =? 1)%nat eqn:Hn; simpl in Hinit;
    [|discriminate].
  apply Nat.eqb_eq in Hn. unfold ndim in Hn.
  destruct (shape (ob_val diag)) as [|n [|? ?]]; try discriminate.
  exists n; reflexivity.
Qed.

Lemma init_object :
  b = DiagLinear.mk diag
        (Block.make
           (ScalarAffine.make (zeros_like (ob_val diag)) (ob_val diag)) 1)
        true true (hd 0%nat (shape (ob_val diag))).
Proof.
  destruct init_shape as [n Hs].
  unfold DiagLinear.__init__, ndim, shape_last in Hinit.
  rewrite Hs in Hinit. simpl in Hinit. injection Hinit as <-.
  rewrite Hs. reflexivity.
Qed.

Hypothesis Hwf : well_formed (ob_val diag).

Lemma init_vector : shape (ob_val diag) = [length (data (ob_val diag))].
Proof.
  destruct init_shape as [n Hs]. unfold well_formed in Hwf.
  rewrite Hs in *. simpl in Hwf. f_equal. lia.
Qed.

(** The values of the four operations on a batch of vectors. *)

Variable batch : list nat.

Let dv : list R := data (ob_val diag).
Let m : nat := numel batch.

Lemma batch_buffer_length (x : Array) :
  well_formed x -> shape x = batch ++ [length dv] ->
  length (data x) = length (tile dv m).
Proof.
  intros Hx Hs. unfold well_formed in Hx.
  rewrite Hx, Hs, numel_app, numel_vector, tile_length. reflexivity.
Qed.

Lemma forward_value (x : Array) :
  well_formed x -> shape x = batch ++ [length dv] ->
  DiagLinear.forward b x
  = Ok (mkArray (shape x) (zip_with Rmult (tile dv m) (data x))).
Proof.
  intros Hx Hs. rewrite init_object. unfold DiagLinear.forward. simpl.
  unfold ScalarAffine.forward, multiply, add.
  rewrite (binop_batch_vector Rmult x (ob_val diag) batch Hx init_vector Hs). cbn [bind].
  rewrite (binop_batch_vector Rplus _ (zeros_like (ob_val diag)) batch).
  - cbn [shape data zeros_like]. fold dv m.
    rewrite tile_map, scale_then_zero_shift. reflexivity.
  - unfold well_formed. cbn [shape data]. fold dv m.
    rewrite zip_with_length, <- (batch_buffer_length x Hx Hs), Nat.min_id.
    exact Hx.
  - cbn [shape data zeros_like]. rewrite length_map. exact init_vector.
  - cbn [shape data zeros_like]. rewrite length_map. exact Hs.
Qed.

Lemma inverse_value (y : Array) :
  well_formed y -> shape y = batch ++ [length dv] ->
  DiagLinear.inverse b y
  = Ok (mkArray (shape y) (zip_with Rdiv (data y) (tile dv m))).
Proof.
  intros Hy Hs. rewrite init_object. unfold DiagLinear.inverse. simpl.
  unfold ScalarAffine.inverse, subtract, divide.
  rewrite (binop_batch_vector Rminus y (zeros_like (ob_val diag)) batch).
  - cbn [bind shape data zeros_like]. fold dv m.
    rewrite (binop_batch_vector Rdiv _ (ob_val diag) batch).
    + cbn [shape data]. fold dv m.
      rewrite tile_map, zero_shift_then_unscale. reflexivity.
    + unfold well_formed. cbn [shape data].
      rewrite tile_map, zip_with_length, length_map,
        <- (batch_buffer_length y Hy Hs), Nat.min_id.
      exact Hy.
    + exact init_vector.
    + exact Hs.
  - exact Hy.
  - cbn [shape data zeros_like]. rewrite length_map. exact init_vector.
  - cbn [shape data zeros_like]. rewrite length_map. exact Hs.
Qed.

Lemma sum_last_batch_vector (v : list R) :
  sum_last 1 (mkArray (batch ++ [length v]) (tile v m))
  = Ok (mkArray batch (repeat (total v) m)).
Proof.
  unfold sum_last, ndim. cbn [shape data]. rewrite length_app. simpl length.
  replace (1 <=? length batch + 1)%nat with true
    by (symmetry; apply Nat.leb_le; lia).
  replace (length batch + 1 - 1)%nat with (length batch) by lia.
  rewrite firstn_app, firstn_all, Nat.sub_diag, firstn_O, app_nil_r.
  rewrite skipn_app, skipn_all, Nat.sub_diag, skipn_O. cbn [app].
  rewrite numel_vector. fold m. rewrite chunks_tile, map_repeat.
  reflexivity.
Qed.

Lemma summed_broadcast (v x : Array) :
  shape v = [length (data v)] ->
  shape x = batch ++ [length (data v)] ->
  (l <- broadcast_to v (shape x) ;; sum_last 1 l)
  = Ok (mkArray batch (repeat (total (data v)) m)).
Proof.
  intros Hv Hs. rewrite Hs, broadcast_to_vector by assumption.
  cbn [bind]. apply sum_last_batch_vector.
Qed.

Lemma forward_log_det_jacobian_value (x : Array) :
  shape x = batch ++ [length dv] ->
  DiagLinear.forward_log_det_jacobian b x
  = Ok (mkArray batch (repeat (total (map ln (map Rabs dv))) m)).
Proof.
  intros Hs. rewrite init_object.
  unfold DiagLinear.forward_log_det_jacobian. simpl.
  unfold ScalarAffine.forward_log_det_jacobian.
  apply (summed_broadcast (log (abs (ob_val diag))) x);
    cbn [log abs unop shape data]; rewrite !length_map.
  - exact init_vector.
  - exact Hs.
Qed.

Lemma inverse_log_det_jacobian_value (y : Array) :
  shape y = batch ++ [length dv] ->
  DiagLinear.inverse_log_det_jacobian b y
  = Ok (mkArray batch (repeat (- total (map ln (map Rabs dv)))%R m)).
Proof.
  intros Hs. rewrite init_object.
  unfold DiagLinear.inverse_log_det_jacobian. simpl.
  unfold ScalarAffine.inverse_log_det_jacobian.
  rewrite <- total_opp.
  apply (summed_broadcast (negative (log (abs (ob_val diag)))) y);
    cbn [negative log abs unop shape data]; rewrite !length_map.
  - exact init_vector.
  - exact Hs.
Qed.

End Constructed.

(** ** The worked scenario, evaluated *)

Lemma scenario_constructed :
  DiagLinear.__init__ Scenario.diag = Ok Scenario.bijector.
Proof. reflexivity. Qed.

Lemma scenario_well_formed :
  Jnp.well_formed (ob_val Scenario.diag) /\ Jnp.well_formed Scenario.x.
Proof. split; reflexivity. Qed.

Lemma scenario_nonzero :
  Forall (fun d => d <> 0%R) (Jnp.data (ob_val Scenario.diag)).
Proof. simpl. repeat constructor; lra. Qed.

Lemma scenario_forward :
  DiagLinear.forward Scenario.bijector Scenario.x
  = Ok (Jnp.mkArray [2; 3]
          [2 * 1; -3 * 1; / 2 * 1; 2 * 4; -3 * 5; / 2 * 6]%R).
Proof.
  rewrite (forward_value Scenario.diag Scenario.bijector scenario_constructed
             (proj1 scenario_well_formed) [2] Scenario.x
             (proj2 scenario_well_formed) eq_refl).
  reflexivity.
Qed.

(** ** The claims about the operations *)

(** In exact arithmetic: for a diagonal without zero entry and a batch [x]
    of vectors as long as the diagonal, [inverse(forward(x))] is [x] and
    [forward(inverse(x))] is [x].  What the floating-point runtime keeps of
    this is the subject of the last part of the file. *)
Theorem DiagLinear_round_trip
    (diag : PyArray) (b : DiagLinear.t) (batch : list nat) (x : Jnp.Array) :
  DiagLinear.__init__ diag = Ok b ->
  Jnp.well_formed (ob_val diag) ->
  Forall (fun d => d <> 0%R) (Jnp.data (ob_val diag)) ->
  Jnp.well_formed x ->
  Jnp.shape x = batch ++ [length (Jnp.data (ob_val diag))] ->
  (y <- DiagLinear.forward b x ;; DiagLinear.inverse b y) = Ok x /\
  (x' <- DiagLinear.inverse b x ;; DiagLinear.forward b x') = Ok x.
Proof.
  intros Hinit Hwf Hnz Hx Hs.
  pose proof (batch_buffer_length diag batch x Hx Hs) as Hlen.
  pose proof (tile_Forall _ (Jnp.data (ob_val diag)) (Jnp.numel batch) Hnz)
    as Hnzt.
  split.
  - rewrite (forward_value diag b Hinit Hwf batch x Hx Hs). cbn [bind].
    rewrite (inverse_value diag b Hinit Hwf batch).
    + cbn [Jnp.shape Jnp.data]. rewrite unscale_scale by assumption.
      destruct x; reflexivity.
    + unfold Jnp.well_formed. cbn [Jnp.shape Jnp.data].
      rewrite zip_with_length, <- Hlen, Nat.min_id. exact Hx.
    + exact Hs.
  - rewrite (inverse_value diag b Hinit Hwf batch x Hx Hs). cbn [bind].
    rewrite (forward_value diag b Hinit Hwf batch).
    + cbn [Jnp.shape Jnp.data]. rewrite scale_unscale by assumption.
      destruct x; reflexivity.
    + unfold Jnp.well_formed. cbn [Jnp.shape Jnp.data].
      rewrite zip_with_length, <- Hlen, Nat.min_id. exact Hx.
    + exact Hs.
Qed.

Lemma DiagLinear_round_trip_scenario :
  (DiagLinear.__init__ Scenario.diag = Ok Scenario.bijector /\
   Jnp.well_formed (ob_val Scenario.diag) /\
   Forall (fun d => d <> 0%R) (Jnp.data (ob_val Scenario.diag)) /\
   Jnp.well_formed Scenario.x /\
   Jnp.shape Scenario.x = [2] ++ [length (Jnp.data (ob_val Scenario.diag))]) /\
  (y <- DiagLinear.forward Scenario.bijector Scenario.x ;;
   DiagLinear.inverse Scenario.bijector y) = Ok Scenario.x /\
  (x' <- DiagLinear.inverse Scenario.bijector Scenario.x ;;
   DiagLinear.forward Scenario.bijector x') = Ok Scenario.x.
Proof.
  assert (Hnz : Forall (fun d => d <> 0%R) (Jnp.data (ob_val Scenario.diag)))
    by (simpl; repeat constructor; lra).
  split.
  - repeat split; try reflexivity. exact Hnz.
  - apply (DiagLinear_round_trip Scenario.diag Scenario.bijector [2]
             Scenario.x); try reflexivity.
    exact Hnz.
Defined.

(** C2. On a batch [x] of vectors as long as the diagonal, [forward(x)] is
    the runtime's elementwise product [diag * x]: entry [i] of the buffer is
    the diagonal entry of its position on the last axis times entry [i] of
    [x]; and [inverse(x)] is the elementwise quotient [x / diag]. *)
Theorem DiagLinear_forward_is_product
    (diag : PyArray) (b : DiagLinear.t) (batch : list nat) (x : Jnp.Array) :
  DiagLinear.__init__ diag = Ok b ->
  Jnp.well_formed (ob_val diag) ->
  Jnp.well_formed x ->
  Jnp.shape x = batch ++ [length (Jnp.data (ob_val diag))] ->
  (exists y,
     DiagLinear.forward b x = Ok y /\
     Jnp.multiply (ob_val diag) x = Ok y /\
     Jnp.shape y = Jnp.shape x /\
     forall i, i < length (Jnp.data x) ->
       nth i (Jnp.data y) 0%R
       = (nth (i mod length (Jnp.data (ob_val diag))) (Jnp.data (ob_val diag)) 0
          * nth i (Jnp.data x) 0)%R) /\
  (exists z,
     DiagLinear.inverse b x = Ok z /\
     Jnp.divide x (ob_val diag) = Ok z /\
     Jnp.shape z = Jnp.shape x /\
     forall i, i < length (Jnp.data x) ->
       nth i (Jnp.data z) 0%R
       = (nth i (Jnp.data x) 0
          / nth (i mod length (Jnp.data (ob_val diag))) (Jnp.data (ob_val diag)) 0)%R).
Proof.
  intros Hinit Hwf Hx Hs.
  pose proof (batch_buffer_length diag batch x Hx Hs) as Hlen.
  pose proof (init_vector diag b Hinit Hwf) as Hv.
  split; eexists; (split; [|split; [|split]]).
  - apply (forward_value diag b Hinit Hwf batch x Hx Hs).
  - apply (binop_vector_batch Rmult x (ob_val diag) batch Hx Hv Hs).
  - reflexivity.
  - intros i Hi. cbn [Jnp.data].
    rewrite zip_with_nth by lia. rewrite tile_nth; [reflexivity|].
    rewrite <- tile_length. lia.
  - apply (inverse_value diag b Hinit Hwf batch x Hx Hs).
  - apply (binop_batch_vector Rdiv x (ob_val diag) batch Hx Hv Hs).
  - reflexivity.
  - intros i Hi. cbn [Jnp.data].
    rewrite zip_with_nth by lia. rewrite tile_nth; [reflexivity|].
    rewrite <- tile_length. lia.
Qed.

Lemma DiagLinear_forward_is_product_scenario :
  (DiagLinear.__init__ Scenario.diag = Ok Scenario.bijector /\
   Jnp.well_formed (ob_val Scenario.diag) /\
   Jnp.well_formed Scenario.x /\
   Jnp.shape Scenario.x = [2] ++ [length (Jnp.data (ob_val Scenario.diag))]) /\
  (exists y,
     DiagLinear.forward Scenario.bijector Scenario.x = Ok y /\
     Jnp.multiply (ob_val Scenario.diag) Scenario.x = Ok y /\
     Jnp.shape y = [2; 3] /\
     forall i, i < 6 ->
       nth i (Jnp.data y) 0%R
       = (nth (i mod 3) (Jnp.data (ob_val Scenario.diag)) 0
          * nth i (Jnp.data Scenario.x) 0)%R) /\
  (exists z,
     DiagLinear.inverse Scenario.bijector Scenario.x = Ok z /\
     Jnp.divide Scenario.x (ob_val Scenario.diag) = Ok z /\
     Jnp.shape z = [2; 3] /\
     forall i, i < 6 ->
       nth i (Jnp.data z) 0%R
       = (nth i (Jnp.data Scenario.x) 0
          / nth (i mod 3) (Jnp.data (ob_val Scenario.diag)) 0)%R).
Proof.
  split.
  - repeat split; reflexivity.
  - apply (DiagLinear_forward_is_product Scenario.diag Scenario.bijector [2]
             Scenario.x); reflexivity.
Defined.

(** C3. For a diagonal without zero entry and a batch [x] of vectors as long
    as the diagonal, [forward_log_det_jacobian(x)] holds one scalar per batch
    element, each the sum of [log |d|] over the diagonal entries [d], which
    is what summing [log(|diag|)] itself gives; the result is the same for
    every other input of the shape of [x]. *)
Theorem DiagLinear_forward_log_det_is_sum_log_abs
    (diag : PyArray) (b : DiagLinear.t) (batch : list nat) (x : Jnp.Array) :
  DiagLinear.__init__ diag = Ok b ->
  Jnp.well_formed (ob_val diag) ->
  Forall (fun d => d <> 0%R) (Jnp.data (ob_val diag)) ->
  Jnp.shape x = batch ++ [length (Jnp.data (ob_val diag))] ->
  DiagLinear.forward_log_det_jacobian b x
  = Ok (Jnp.mkArray batch
          (repeat (Jnp.total (map (fun d => ln (Rabs d)) (Jnp.data (ob_val diag))))
                  (Jnp.numel batch))) /\
  Jnp.sum_last 1 (Jnp.log (Jnp.abs (ob_val diag)))
  = Ok (Jnp.mkArray []
          [Jnp.total (map (fun d => ln (Rabs d)) (Jnp.data (ob_val diag)))]) /\
  (forall x', Jnp.shape x' = Jnp.shape x ->
     DiagLinear.forward_log_det_jacobian b x'
     = DiagLinear.forward_log_det_jacobian b x).
Proof.
  intros Hinit Hwf _ Hs.
  pose proof (init_vector diag b Hinit Hwf) as Hv.
  rewrite <- (map_map Rabs ln).
  split; [|split].
  - apply (forward_log_det_jacobian_value diag b Hinit Hwf batch x Hs).
  - pose proof (sum_last_batch_vector []
                  (map ln (map Rabs (Jnp.data (ob_val diag))))) as H.
    rewrite !length_map in H. cbn [app Jnp.numel fold_right] in H.
    rewrite tile_one in H. cbn [repeat] in H.
    unfold Jnp.log, Jnp.abs, Jnp.unop. cbn [Jnp.shape Jnp.data].
    rewrite Hv. exact H.
  - intros x' Hs'. rewrite Hs in Hs'.
    rewrite (forward_log_det_jacobian_value diag b Hinit Hwf batch x Hs).
    apply (forward_log_det_jacobian_value diag b Hinit Hwf batch x' Hs').
Qed.

Lemma DiagLinear_forward_log_det_scenario :
  (DiagLinear.__init__ Scenario.diag = Ok Scenario.bijector /\
   Jnp.well_formed (ob_val Scenario.diag) /\
   Forall (fun d => d <> 0%R) (Jnp.data (ob_val Scenario.diag)) /\
   Jnp.shape Scenario.x = [2] ++ [length (Jnp.data (ob_val Scenario.diag))]) /\
  DiagLinear.forward_log_det_jacobian Scenario.bijector Scenario.x
  = Ok (Jnp.mkArray [2]
          [ (ln (Rabs 2) + (ln (Rabs (-3)) + (ln (Rabs (/ 2)) + 0)))%R;
            (ln (Rabs 2) + (ln (Rabs (-3)) + (ln (Rabs (/ 2)) + 0)))%R ]).
Proof.
  assert (Hnz : Forall (fun d => d <> 0%R) (Jnp.data (ob_val Scenario.diag)))
    by (simpl; repeat constructor; lra).
  split.
  - repeat split; try reflexivity. exact Hnz.
  - apply (DiagLinear_forward_log_det_is_sum_log_abs Scenario.diag
             Scenario.bijector [2] Scenario.x); try reflexivity.
    exact Hnz.
Defined.

(** C4. For a diagonal without zero entry and a batch [y] of vectors as long
    as the diagonal, [inverse_log_det_jacobian(y)] holds, per batch element,
    minus the sum of [log |d|] over the diagonal entries; it is the negation
    of [forward_log_det_jacobian] at any input of the shape of [y]. *)
Theorem DiagLinear_inverse_log_det_is_negation
    (diag : PyArray) (b : DiagLinear.t) (batch : list nat) (y : Jnp.Array) :
  DiagLinear.__init__ diag = Ok b ->
  Jnp.well_formed (ob_val diag) ->
  Forall (fun d => d <> 0%R) (Jnp.data (ob_val diag)) ->
  Jnp.shape y = batch ++ [length (Jnp.data (ob_val diag))] ->
  DiagLinear.inverse_log_det_jacobian b y
  = Ok (Jnp.mkArray batch
          (repeat (- Jnp.total (map (fun d => ln (Rabs d)) (Jnp.data (ob_val diag))))%R
                  (Jnp.numel batch))) /\
  (forall x, Jnp.shape x = Jnp.shape y ->
     DiagLinear.inverse_log_det_jacobian b y
     = fmap Jnp.negative (DiagLinear.forward_log_det_jacobian b x)).
Proof.
  intros Hinit Hwf _ Hs.
  rewrite <- (map_map Rabs ln).
  rewrite (inverse_log_det_jacobian_value diag b Hinit Hwf batch y Hs).
  split; [reflexivity|].
  intros x Hx. rewrite Hs in Hx.
  rewrite (forward_log_det_jacobian_value diag b Hinit Hwf batch x Hx).
  unfold fmap, Jnp.negative, Jnp.unop. cbn [bind Jnp.shape Jnp.data].
  rewrite map_repeat. reflexivity.
Qed.

Lemma DiagLinear_inverse_log_det_scenario :
  (DiagLinear.__init__ Scenario.diag = Ok Scenario.bijector /\
   Jnp.well_formed (ob_val Scenario.diag) /\
   Forall (fun d => d <> 0%R) (Jnp.data (ob_val Scenario.diag)) /\
   Jnp.shape Scenario.x = [2] ++ [length (Jnp.data (ob_val Scenario.diag))]) /\
  DiagLinear.inverse_log_det_jacobian Scenario.bijector Scenario.x
  = Ok (Jnp.mkArray [2]
          [ (- (ln (Rabs 2) + (ln (Rabs (-3)) + (ln (Rabs (/ 2)) + 0))))%R;
            (- (ln (Rabs 2) + (ln (Rabs (-3)) + (ln (Rabs (/ 2)) + 0))))%R ]).
Proof.
  assert (Hnz : Forall (fun d => d <> 0%R) (Jnp.data (ob_val Scenario.diag)))
    by (simpl; repeat constructor; lra).
  split.
  - repeat split; try reflexivity. exact Hnz.
  - apply (DiagLinear_inverse_log_det_is_negation Scenario.diag
             Scenario.bijector [2] Scenario.x); try reflexivity.
    exact Hnz.
Defined.

(** C5. On every input, [forward_and_log_det(x)] is the very pair
    [(forward(x), forward_log_det_jacobian(x))] and [inverse_and_log_det(y)]
    the very pair [(inverse(y), inverse_log_det_jacobian(y))]: equal
    results, and the same exception when a call raises. *)
Theorem DiagLinear_fused_is_pair
    (diag : PyArray) (b : DiagLinear.t) (x : Jnp.Array) :
  DiagLinear.__init__ diag = Ok b ->
  DiagLinear.forward_and_log_det b x
  = AbstractBijector.tuple2 (DiagLinear.forward b x)
                            (DiagLinear.forward_log_det_jacobian b x) /\
  DiagLinear.inverse_and_log_det b x
  = AbstractBijector.tuple2 (DiagLinear.inverse b x)
                            (DiagLinear.inverse_log_det_jacobian b x).
Proof.
  intros Hinit. rewrite (init_object diag b Hinit).
  unfold DiagLinear.forward_and_log_det, DiagLinear.inverse_and_log_det,
    DiagLinear.forward, DiagLinear.inverse,
    DiagLinear.forward_log_det_jacobian, DiagLinear.inverse_log_det_jacobian.
  cbn [DiagLinear._bijector Block.make ScalarAffine.make
       AbstractBijector.forward AbstractBijector.inverse
       AbstractBijector.forward_log_det_jacobian
       AbstractBijector.inverse_log_det_jacobian
       AbstractBijector.forward_and_log_det
       AbstractBijector.inverse_and_log_det].
  unfold AbstractBijector.tuple2. split.
  - destruct (ScalarAffine.forward _ _ x) as [y|e]; cbn [bind];
      [|reflexivity].
    destruct (ScalarAffine.forward_log_det_jacobian _ x) as [l|e];
      cbn [bind fst snd]; [|reflexivity].
    destruct (Jnp.sum_last 1 l); reflexivity.
  - destruct (ScalarAffine.inverse _ _ x) as [y|e]; cbn [bind];
      [|reflexivity].
    destruct (ScalarAffine.inverse_log_det_jacobian _ x) as [l|e];
      cbn [bind fst snd]; [|reflexivity].
    destruct (Jnp.sum_last 1 l); reflexivity.
Qed.

Lemma DiagLinear_fused_is_pair_scenario :
  DiagLinear.__init__ Scenario.diag = Ok Scenario.bijector /\
  DiagLinear.forward_and_log_det Scenario.bijector Scenario.x
  = AbstractBijector.tuple2
      (DiagLinear.forward Scenario.bijector Scenario.x)
      (DiagLinear.forward_log_det_jacobian Scenario.bijector Scenario.x) /\
  DiagLinear.inverse_and_log_det Scenario.bijector Scenario.x
  = AbstractBijector.tuple2
      (DiagLinear.inverse Scenario.bijector Scenario.x)
      (DiagLinear.inverse_log_det_jacobian Scenario.bijector Scenario.x).
Proof.
  split.
  - reflexivity.
  - apply (DiagLinear_fused_is_pair Scenario.diag Scenario.bijector Scenario.x).
    reflexivity.
Defined.

(** ** Construction *)

(** C6. [__init__] raises [ValueError] with its message, and yields no
    object, when [diag] does not have exactly one axis; it returns the
    bijector holding [diag] when [diag] has one axis, whatever its length. *)
Theorem DiagLinear_init_validates_rank (diag : PyArray) :
  (Jnp.ndim (ob_val diag) <> 1 ->
   DiagLinear.__init__ diag
   = Raise (ValueError "`diag` must have one dimension.")) /\
  (Jnp.ndim (ob_val diag) = 1 ->
   exists b, DiagLinear.__init__ diag = Ok b /\ DiagLinear.diag b = diag) /\
  (forall (id n : nat) (buffer : list R),
     0 < n -> length buffer = n ->
     exists b,
       DiagLinear.__init__ (mkPyArray id (Jnp.mkArray [n] buffer)) = Ok b /\
       DiagLinear._event_dims b = n).
Proof.
  split; [|split].
  - intros Hn. unfold DiagLinear.__init__.
    apply Nat.eqb_neq in Hn. rewrite Hn. reflexivity.
  - intros Hn. unfold DiagLinear.__init__. rewrite Hn. simpl.
    unfold Jnp.ndim in Hn. unfold Jnp.shape_last.
    destruct (Jnp.shape (ob_val diag)) as [|n [|? ?]]; try discriminate.
    simpl. eexists; split; reflexivity.
  - intros id n buffer _ _. eexists; split; reflexivity.
Qed.

Lemma scenario_matrix_rejected :
  DiagLinear.__init__ Scenario.square
  = Raise (ValueError "`diag` must have one dimension.").
Proof. reflexivity. Qed.

(** ** Sameness *)

(** C7. [same_as(other)] is true exactly when [other] is an instance of
    [DiagLinear] itself whose [diag] is the array object that [self] holds.
    So a bijector is the same as itself and as one built from the same array
    object, but not the same as one built from a separately allocated array
    of equal contents, nor as a bijector of another class. *)
Theorem DiagLinear_same_as_is_identity (self : DiagLinear.t) :
  (forall other,
     DiagLinear.same_as self other = true <->
     exists o, other = DiagLinear.Exactly o /\
               ob_id (DiagLinear.diag o) = ob_id (DiagLinear.diag self)) /\
  DiagLinear.same_as self (DiagLinear.Exactly self) = true /\
  (forall d b1 b2,
     DiagLinear.__init__ d = Ok b1 -> DiagLinear.__init__ d = Ok b2 ->
     DiagLinear.same_as b1 (DiagLinear.Exactly b2) = true) /\
  (forall contents next b1 b2,
     let (d1, next1) := new_array contents next in
     let (d2, _) := new_array contents next1 in
     DiagLinear.__init__ d1 = Ok b1 -> DiagLinear.__init__ d2 = Ok b2 ->
     ob_val d1 = ob_val d2 /\
     DiagLinear.same_as b1 (DiagLinear.Exactly b2) = false) /\
  (forall name o, DiagLinear.same_as self (DiagLinear.Other name o) = false).
Proof.
  split; [|split; [|split; [|split]]].
  - intros other; split.
    + destruct other as [o|name o|name o]; simpl; try discriminate.
      unfold py_is. intros H. apply Nat.eqb_eq in H.
      exists o; split; [reflexivity | symmetry; assumption].
    + intros [o [-> Hid]]. simpl. unfold py_is. apply Nat.eqb_eq.
      symmetry; assumption.
  - simpl. unfold py_is. apply Nat.eqb_refl.
  - intros d b1 b2 H1 H2.
    rewrite (init_object d b1 H1), (init_object d b2 H2). simpl.
    unfold py_is. apply Nat.eqb_refl.
  - intros contents next b1 b2. simpl. intros H1 H2.
    split; [reflexivity|].
    rewrite (init_object _ b1 H1), (init_object _ b2 H2). simpl.
    unfold DiagLinear.same_as, DiagLinear.diag, py_is. simpl.
    apply Nat.eqb_neq. lia.
  - reflexivity.
Qed.

(** C10. [same_as(other)] is false whenever the class of [other] is not
    [DiagLinear] itself. *)
Theorem DiagLinear_same_as_requires_exact_class
    (self : DiagLinear.t) (other : DiagLinear.Instance) :
  DiagLinear.type_of other <> ClsDiagLinear ->
  DiagLinear.same_as self other = false.
Proof.
  intros Hc. unfold DiagLinear.same_as.
  destruct other as [o|name o|name o]; simpl in *;
    [contradiction | reflexivity | reflexivity].
Qed.

(** An instance of a class deriving from [DiagLinear] that holds the very
    array object of the scenario's bijector is not the same. *)
Lemma DiagLinear_same_as_derived_scenario :
  (DiagLinear.type_of (DiagLinear.Derived "Sub" Scenario.bijector)
   <> ClsDiagLinear /\
   issubclass_DiagLinear
     (DiagLinear.type_of (DiagLinear.Derived "Sub" Scenario.bijector)) = true /\
   py_is (DiagLinear.diag Scenario.bijector)
         (DiagLinear.diag Scenario.bijector) = true) /\
  DiagLinear.same_as Scenario.bijector
    (DiagLinear.Derived "Sub" Scenario.bijector) = false.
Proof.
  assert (Hc : DiagLinear.type_of (DiagLinear.Derived "Sub" Scenario.bijector)
               <> ClsDiagLinear) by discriminate.
  split.
  - split; [exact Hc | split; reflexivity].
  - apply (DiagLinear_same_as_requires_exact_class Scenario.bijector
             (DiagLinear.Derived "Sub" Scenario.bijector) Hc).
Defined.

(** ** The matrix *)

Section Grid.

Variable g : nat -> nat -> R.
Variable n : nat.

Lemma grid_length (s m : nat) :
  length (flat_map (fun i => map (g i) (seq 0 n)) (seq s m)) = m * n.
Proof.
  revert s; induction m as [|m IH]; intros s; simpl; [reflexivity|].
  rewrite length_app, length_map, length_seq, IH. reflexivity.
Qed.

Lemma grid_nth (s m i j : nat) :
  i < m -> j < n ->
  nth (i * n + j) (flat_map (fun i => map (g i) (seq 0 n)) (seq s m)) 0%R
  = g (s + i) j.
Proof.
  revert s i; induction m as [|m IH]; intros s i Hi Hj; [lia|].
  cbn [seq flat_map]. destruct i as [|i].
  - rewrite app_nth1 by (rewrite length_map, length_seq; lia).
    rewrite (nth_indep _ 0%R (g s 0)) by (rewrite length_map, length_seq; lia).
    rewrite map_nth, seq_nth by lia. f_equal; lia.
  - rewrite app_nth2 by (rewrite length_map, length_seq; simpl; lia).
    rewrite length_map, length_seq.
    replace (S i * n + j - n) with (i * n + j) by (simpl; lia).
    rewrite IH by lia. f_equal; lia.
Qed.

End Grid.

(** C8. [matrix] of a bijector built from a vector of length [D] is a
    [D x D] array that carries entry [i] of the vector at row [i], column
    [i], and zero at every other position. *)
Theorem DiagLinear_matrix_is_diagonal (diag : PyArray) (b : DiagLinear.t) :
  DiagLinear.__init__ diag = Ok b ->
  Jnp.well_formed (ob_val diag) ->
  exists A,
    DiagLinear.matrix b = Ok A /\
    Jnp.shape A = [length (Jnp.data (ob_val diag));
                   length (Jnp.data (ob_val diag))] /\
    Jnp.well_formed A /\
    forall i j,
      i < length (Jnp.data (ob_val diag)) ->
      j < length (Jnp.data (ob_val diag)) ->
      nth (i * length (Jnp.data (ob_val diag)) + j) (Jnp.data A) 0%R
      = if i =? j then nth i (Jnp.data (ob_val diag)) 0%R else 0%R.
Proof.
  intros Hinit Hwf.
  pose proof (init_vector diag b Hinit Hwf) as Hv.
  rewrite (init_object diag b Hinit).
  unfold DiagLinear.matrix, DiagLinear.diag. cbn [DiagLinear._diag].
  set (v := ob_val diag) in *. set (D := length (Jnp.data v)) in *.
  unfold Jnp.vmap, Jnp.expand_dims0. cbn [Jnp.shape Jnp.data]. rewrite Hv.
  rewrite chunks_one by (rewrite numel_vector; reflexivity).
  cbn [map mapM]. unfold Jnp.diag at 1. cbn [Jnp.shape Jnp.data bind].
  unfold Jnp.getitem0. cbn [Jnp.shape Jnp.data concat map].
  rewrite app_nil_r.
  assert (Hlen : length (flat_map
                   (fun i => map (fun j => if i =? j then nth i (Jnp.data v) 0%R
                                           else 0%R) (seq 0 D)) (seq 0 D))
                 = Jnp.numel [D; D]).
  { rewrite (grid_length
               (fun i j => if i =? j then nth i (Jnp.data v) 0%R else 0%R)).
    simpl. lia. }
  rewrite <- Hlen, firstn_all.
  eexists; split; [reflexivity|]. split; [reflexivity|]. split.
  - exact Hlen.
  - intros i j Hi Hj. cbn [Jnp.data].
    apply (grid_nth
             (fun i j => if i =? j then nth i (Jnp.data v) 0%R else 0%R)
             D 0 D i j Hi Hj).
Qed.

Lemma DiagLinear_matrix_scenario :
  (DiagLinear.__init__ Scenario.diag = Ok Scenario.bijector /\
   Jnp.well_formed (ob_val Scenario.diag)) /\
  exists A,
    DiagLinear.matrix Scenario.bijector = Ok A /\
    Jnp.shape A = [3; 3] /\
    Jnp.well_formed A /\
    forall i j, i < 3 -> j < 3 ->
      nth (i * 3 + j) (Jnp.data A) 0%R
      = if i =? j then nth i (Jnp.data (ob_val Scenario.diag)) 0%R else 0%R.
Proof.
  split.
  - split; reflexivity.
  - apply (DiagLinear_matrix_is_diagonal Scenario.diag Scenario.bijector);
      reflexivity.
Defined.

Lemma scenario_matrix :
  DiagLinear.matrix Scenario.bijector
  = Ok (Jnp.mkArray [3; 3] [2; 0; 0; 0; -3; 0; 0; 0; / 2]%R).
Proof. reflexivity. Qed.

(** ** Immutability *)

Lemma run_preserves_object (self : DiagLinear.t) (cs : list DiagLinear.Call) :
  fst (DiagLinear.run self cs) = self.
Proof.
  induction cs as [|c cs IH]; [reflexivity|].
  cbn [DiagLinear.run].
  replace (DiagLinear.call self c) with (self, snd (DiagLinear.call self c))
    by (destruct c; reflexivity).
  destruct (DiagLinear.run self cs) as [self2 vs]. exact IH.
Qed.

(** C9. A bijector that [__init__] returned reports [is_constant_jacobian]
    and [is_constant_log_det] as true, and after any sequence of calls of its
    methods and properties it is the same object, reporting the same. *)
Theorem DiagLinear_constant_flags (diag : PyArray) (b : DiagLinear.t) :
  DiagLinear.__init__ diag = Ok b ->
  DiagLinear.is_constant_jacobian b = true /\
  DiagLinear.is_constant_log_det b = true /\
  forall cs : list DiagLinear.Call,
    fst (DiagLinear.run b cs) = b /\
    DiagLinear.is_constant_jacobian (fst (DiagLinear.run b cs)) = true /\
    DiagLinear.is_constant_log_det (fst (DiagLinear.run b cs)) = true.
Proof.
  intros Hinit.
  assert (Hflags : DiagLinear.is_constant_jacobian b = true /\
                   DiagLinear.is_constant_log_det b = true)
    by (rewrite (init_object diag b Hinit); split; reflexivity).
  destruct Hflags as [Hj Hl].
  split; [exact Hj|]. split; [exact Hl|].
  intros cs. rewrite run_preserves_object. auto.
Qed.

Lemma DiagLinear_constant_flags_scenario :
  DiagLinear.__init__ Scenario.diag = Ok Scenario.bijector /\
  DiagLinear.is_constant_jacobian Scenario.bijector = true /\
  DiagLinear.is_constant_log_det Scenario.bijector = true /\
  DiagLinear.is_constant_jacobian
    (fst (DiagLinear.run Scenario.bijector
            [DiagLinear.CallForward Scenario.x; DiagLinear.GetMatrix;
             DiagLinear.CallSameAs (DiagLinear.Exactly Scenario.bijector)]))
  = true.
Proof.
  pose proof (DiagLinear_constant_flags Scenario.diag Scenario.bijector
                eq_refl) as [Hj [Hl Hrun]].
  split; [reflexivity|]. split; [exact Hj|]. split; [exact Hl|].
  apply Hrun.
Defined.

(** * Further properties of the class *)

(** ** Sameness is an identity test that never errs *)

Lemma new_arrays_ids (contents : list Jnp.Array) :
  forall next o,
    In o (fst (new_arrays contents next)) ->
    next <= ob_id o /\ nth_error contents (ob_id o - next) = Some (ob_val o).
Proof.
  induction contents as [|a rest IH]; intros next o Hin; [contradiction|].
  cbn [new_arrays new_array] in Hin.
  destruct (new_arrays rest (S next)) as [os next2] eqn:Hrest.
  cbn [fst] in Hin. destruct Hin as [<- | Hin].
  - cbn [ob_id ob_val]. rewrite Nat.sub_diag. split; [lia | reflexivity].
  - specialize (IH (S next) o). rewrite Hrest in IH.
    destruct (IH Hin) as [Hle Hnth]. split; [lia|].
    replace (ob_id o - next) with (S (ob_id o - S next)) by lia.
    exact Hnth.
Qed.

(** Among objects of one allocation run the identity determines the object. *)
Lemma new_arrays_identity (contents : list Jnp.Array) (next : nat)
    (o1 o2 : PyArray) :
  In o1 (fst (new_arrays contents next)) ->
  In o2 (fst (new_arrays contents next)) ->
  ob_id o1 = ob_id o2 -> o1 = o2.
Proof.
  intros H1 H2 Hid.
  destruct (new_arrays_ids contents next o1 H1) as [_ Hv1].
  destruct (new_arrays_ids contents next o2 H2) as [_ Hv2].
  rewrite Hid in Hv1. rewrite Hv1 in Hv2. injection Hv2 as Hv.
  destruct o1, o2; simpl in *; congruence.
Qed.

(** X1. For bijectors built from array objects of one allocation run,
    [same_as] answers true exactly when the two bijectors are equal, fields
    and operations alike: it has no false positive. *)
Theorem DiagLinear_same_as_sound
    (contents : list Jnp.Array) (next : nat) (d1 d2 : PyArray)
    (b1 b2 : DiagLinear.t) :
  In d1 (fst (new_arrays contents next)) ->
  In d2 (fst (new_arrays contents next)) ->
  DiagLinear.__init__ d1 = Ok b1 ->
  DiagLinear.__init__ d2 = Ok b2 ->
  (DiagLinear.same_as b1 (DiagLinear.Exactly b2) = true <-> b1 = b2).
Proof.
  intros H1 H2 Hb1 Hb2. split.
  - intros Hsame.
    assert (Hid : ob_id d1 = ob_id d2).
    { rewrite (init_object d1 b1 Hb1), (init_object d2 b2 Hb2) in Hsame.
      unfold DiagLinear.same_as, DiagLinear.diag, py_is in Hsame.
      simpl in Hsame. apply Nat.eqb_eq. exact Hsame. }
    pose proof (new_arrays_identity contents next d1 d2 H1 H2 Hid) as Heq.
    subst d2. congruence.
  - intros <-. unfold DiagLinear.same_as, py_is. simpl. apply Nat.eqb_refl.
Qed.

Lemma DiagLinear_same_as_sound_scenario :
  let store := fst (new_arrays [Scenario.diag_array; Scenario.diag_array] 7) in
  (In Scenario.diag store /\
   DiagLinear.__init__ Scenario.diag = Ok Scenario.bijector) /\
  (DiagLinear.same_as Scenario.bijector (DiagLinear.Exactly Scenario.bijector)
   = true <-> Scenario.bijector = Scenario.bijector).
Proof.
  assert (Hin : In Scenario.diag
                  (fst (new_arrays [Scenario.diag_array; Scenario.diag_array] 7)))
    by (left; reflexivity).
  split.
  - split; [exact Hin | reflexivity].
  - apply (DiagLinear_same_as_sound
             [Scenario.diag_array; Scenario.diag_array] 7
             Scenario.diag Scenario.diag Scenario.bijector Scenario.bijector
             Hin Hin eq_refl eq_refl).
Defined.

(** X2. On instances of [DiagLinear] itself [same_as] is symmetric and
    transitive. *)
Theorem DiagLinear_same_as_equivalence (a b c : DiagLinear.t) :
  DiagLinear.same_as a (DiagLinear.Exactly b)
  = DiagLinear.same_as b (DiagLinear.Exactly a) /\
  (DiagLinear.same_as a (DiagLinear.Exactly b) = true ->
   DiagLinear.same_as b (DiagLinear.Exactly c) = true ->
   DiagLinear.same_as a (DiagLinear.Exactly c) = true).
Proof.
  unfold DiagLinear.same_as, py_is. simpl. split.
  - apply Nat.eqb_sym.
  - intros Hab Hbc. apply Nat.eqb_eq in Hab, Hbc. apply Nat.eqb_eq.
    congruence.
Qed.

(** ** Inputs that do not fit *)

Lemma broadcast_shapes_misfit (batch : list nat) (D k : nat) :
  D <> 1 -> k <> 1 -> k <> D ->
  Jnp.broadcast_shapes (batch ++ [k]) [D] = Raise SubstrateError.
Proof.
  intros HD Hk1 Hk. apply Nat.eqb_neq in HD, Hk1, Hk.
  unfold Jnp.broadcast_shapes. rewrite rev_unit.
  cbn [rev app Jnp.broadcast_rev]. rewrite Hk, Hk1, HD. reflexivity.
Qed.

(** X3. When the last axis of the input is neither as long as the diagonal
    nor of length one, and the diagonal is longer than one entry or empty,
    [forward], [inverse] and the two fused operations, which compute
    [forward] or [inverse] first, raise the runtime's shape error: none
    returns a silently broadcast result. *)
Theorem DiagLinear_rejects_misfit
    (diag : PyArray) (b : DiagLinear.t) (batch : list nat) (k : nat)
    (x : Jnp.Array) :
  DiagLinear.__init__ diag = Ok b ->
  Jnp.well_formed (ob_val diag) ->
  length (Jnp.data (ob_val diag)) <> 1 ->
  k <> 1 ->
  k <> length (Jnp.data (ob_val diag)) ->
  Jnp.shape x = batch ++ [k] ->
  DiagLinear.forward b x = Raise SubstrateError /\
  DiagLinear.inverse b x = Raise SubstrateError /\
  DiagLinear.forward_and_log_det b x = Raise SubstrateError /\
  DiagLinear.inverse_and_log_det b x = Raise SubstrateError.
Proof.
  intros Hinit Hwf HD Hk1 Hk Hs.
  pose proof (init_vector diag b Hinit Hwf) as Hv.
  assert (Hmul : forall f, Jnp.binop f x (ob_val diag) = Raise SubstrateError).
  { intros f. unfold Jnp.binop. rewrite Hs, Hv.
    rewrite broadcast_shapes_misfit by assumption. reflexivity. }
  assert (Hsub : forall f,
             Jnp.binop f x (Jnp.zeros_like (ob_val diag)) = Raise SubstrateError).
  { intros f. unfold Jnp.binop. cbn [Jnp.zeros_like Jnp.shape]. rewrite Hs, Hv.
    rewrite broadcast_shapes_misfit by assumption. reflexivity. }
  assert (Hf : DiagLinear.forward b x = Raise SubstrateError).
  { rewrite (init_object diag b Hinit). unfold DiagLinear.forward. simpl.
    unfold ScalarAffine.forward, Jnp.multiply. rewrite Hmul. reflexivity. }
  assert (Hi : DiagLinear.inverse b x = Raise SubstrateError).
  { rewrite (init_object diag b Hinit). unfold DiagLinear.inverse. simpl.
    unfold ScalarAffine.inverse, Jnp.subtract. rewrite Hsub. reflexivity. }
  rewrite (init_object diag b Hinit) in *.
  unfold DiagLinear.forward, DiagLinear.inverse in Hf, Hi.
  unfold DiagLinear.forward, DiagLinear.inverse,
    DiagLinear.forward_and_log_det, DiagLinear.inverse_and_log_det.
  simpl in *. unfold AbstractBijector.tuple2.
  rewrite Hf, Hi.
  repeat split; reflexivity.
Qed.

Lemma DiagLinear_rejects_misfit_scenario :
  (DiagLinear.__init__ Scenario.diag = Ok Scenario.bijector /\
   Jnp.well_formed (ob_val Scenario.diag) /\
   length (Jnp.data (ob_val Scenario.diag)) <> 1 /\
   2 <> 1 /\
   2 <> length (Jnp.data (ob_val Scenario.diag)) /\
   Jnp.shape Scenario2.misfit = [2] ++ [2]) /\
  DiagLinear.forward Scenario.bijector Scenario2.misfit
  = Raise SubstrateError /\
  DiagLinear.inverse Scenario.bijector Scenario2.misfit
  = Raise SubstrateError /\
  DiagLinear.forward_and_log_det Scenario.bijector Scenario2.misfit
  = Raise SubstrateError /\
  DiagLinear.inverse_and_log_det Scenario.bijector Scenario2.misfit
  = Raise SubstrateError.
Proof.
  split.
  - repeat split; try reflexivity; simpl; lia.
  - apply (DiagLinear_rejects_misfit Scenario.diag Scenario.bijector [2] 2
             Scenario2.misfit); try reflexivity; simpl; lia.
Defined.

(** ** The matrix and the map it stands for *)

Section DiagonalMatrix.

Variable dv : list R.




Lemma nth_map_seq (f : nat -> R) (n i : nat) :
  i < n -> nth i (map f (seq 0 n)) 0%R = f i.
Proof.
  intros Hi.
  rewrite (nth_indep (map f (seq 0 n)) 0%R (f 0))
    by (rewrite length_map, length_seq; assumption).
  rewrite map_nth, seq_nth by assumption. reflexivity.
Qed.


End DiagonalMatrix.

Section MatrixOfConstructed.

Variable diag : PyArray.
Variable b : DiagLinear.t.
Hypothesis Hinit : DiagLinear.__init__ diag = Ok b.
Hypothesis Hwf : Jnp.well_formed (ob_val diag).

Let dv : list R := Jnp.data (ob_val diag).
Let D : nat := length dv.

Lemma matrix_value :
  DiagLinear.matrix b
  = Ok (Jnp.mkArray [D; D]
          (flat_map
             (fun i => map (fun j => if i =? j then nth i dv 0%R else 0%R)
                           (seq 0 D))
             (seq 0 D))).
Proof.
  pose proof (init_vector diag b Hinit Hwf) as Hv.
  rewrite (init_object diag b Hinit).
  unfold DiagLinear.matrix, DiagLinear.diag. cbn [DiagLinear._diag].
  unfold Jnp.vmap, Jnp.expand_dims0. cbn [Jnp.shape Jnp.data]. rewrite Hv.
  rewrite chunks_one by (rewrite numel_vector; reflexivity).
  cbn [map mapM]. unfold Jnp.diag at 1. cbn [Jnp.shape Jnp.data bind].
  unfold Jnp.getitem0. cbn [Jnp.shape Jnp.data concat map].
  rewrite app_nil_r. fold dv D.
  rewrite firstn_all2; [reflexivity|].
  rewrite (grid_length
             (fun i j => if i =? j then nth i dv 0%R else 0%R)).
  simpl. lia.
Qed.

End MatrixOfConstructed.



(** X5. Taking the diagonal of [matrix] gives back the array the bijector
    was built from: the matrix loses nothing of [diag]. *)
Theorem DiagLinear_matrix_diag_round_trip (diag : PyArray) (b : DiagLinear.t) :
  DiagLinear.__init__ diag = Ok b ->
  Jnp.well_formed (ob_val diag) ->
  (A <- DiagLinear.matrix b ;; Jnp.diag A) = Ok (ob_val (DiagLinear.diag b)).
Proof.
  intros Hinit Hwf.
  pose proof (init_vector diag b Hinit Hwf) as Hv.
  rewrite (matrix_value diag b Hinit Hwf). cbn [bind].
  rewrite (init_object diag b Hinit).
  unfold DiagLinear.diag. cbn [DiagLinear._diag].
  unfold Jnp.diag. cbn [Jnp.shape Jnp.data]. rewrite Nat.min_id.
  destruct (ob_val diag) as [sh dv]. cbn [Jnp.shape Jnp.data] in *.
  rewrite Hv. do 2 f_equal.
  apply (nth_ext _ _ 0%R 0%R).
  - rewrite length_map, length_seq. reflexivity.
  - intros i Hi. rewrite length_map, length_seq in Hi.
    rewrite nth_map_seq by assumption.
    rewrite (grid_nth (fun i j => if i =? j then nth i dv 0%R else 0%R)
               (length dv) 0 (length dv) i i Hi Hi).
    rewrite Nat.eqb_refl. reflexivity.
Qed.

Lemma DiagLinear_matrix_diag_round_trip_scenario :
  (DiagLinear.__init__ Scenario.diag = Ok Scenario.bijector /\
   Jnp.well_formed (ob_val Scenario.diag)) /\
  (A <- DiagLinear.matrix Scenario.bijector ;; Jnp.diag A)
  = Ok Scenario.diag_array.
Proof.
  split.
  - split; reflexivity.
  - apply (DiagLinear_matrix_diag_round_trip Scenario.diag Scenario.bijector);
      reflexivity.
Defined.

(** ** The determinant *)




(** ** Linearity *)

Section SameShape.

Import Jnp.



Lemma zip_with_nil_r (f : R -> R -> R) (l : list R) : zip_with f l [] = [].
Proof. destruct l; reflexivity. Qed.



End SameShape.



(** ** Composition and inversion *)

Section Composition.

Import Jnp.









End Composition.







(** ** Invertibility *)




(** A diagonal with a zero entry is accepted by [__init__], and its
    bijector sends two different vectors to the same image. *)
Lemma scenario_singular_collapses :
  exists b,
    DiagLinear.__init__ Scenario2.singular = Ok b /\
    DiagLinear.forward b (Jnp.mkArray [2] [1; 0]%R)
    = DiagLinear.forward b (Jnp.mkArray [2] [1; 1]%R).
Proof.
  eexists. split; [reflexivity|].
  cbn. replace (1 * 0 + 0)%R with (0 * 0 + 0)%R by lra. reflexivity.
Qed.

(** ** The fused operations, there and back *)

Section Fused.

Variable diag : PyArray.
Variable b : DiagLinear.t.
Hypothesis Hinit : DiagLinear.__init__ diag = Ok b.



End Fused.



(** ** The stored diagonal *)

(** X13. The [diag] property returns the array object [__init__] received,
    so building a bijector from [b.diag] gives [b] again, and [_event_dims]
    is the number of entries of that array. *)
Theorem DiagLinear_rebuild_from_diag (diag : PyArray) (b : DiagLinear.t) :
  DiagLinear.__init__ diag = Ok b ->
  Jnp.well_formed (ob_val diag) ->
  DiagLinear.__init__ (DiagLinear.diag b) = Ok b /\
  py_is (DiagLinear.diag b) diag = true /\
  DiagLinear._event_dims b = length (Jnp.data (ob_val (DiagLinear.diag b))).
Proof.
  intros Hinit Hwf.
  pose proof (init_vector diag b Hinit Hwf) as Hv.
  assert (Hd : DiagLinear.diag b = diag)
    by (rewrite (init_object diag b Hinit); reflexivity).
  rewrite Hd. split; [exact Hinit|]. split.
  - unfold py_is. apply Nat.eqb_refl.
  - rewrite (init_object diag b Hinit). cbn [DiagLinear._event_dims].
    rewrite Hv. reflexivity.
Qed.

Lemma DiagLinear_rebuild_from_diag_scenario :
  (DiagLinear.__init__ Scenario.diag = Ok Scenario.bijector /\
   Jnp.well_formed (ob_val Scenario.diag)) /\
  DiagLinear.__init__ (DiagLinear.diag Scenario.bijector)
  = Ok Scenario.bijector /\
  py_is (DiagLinear.diag Scenario.bijector) Scenario.diag = true /\
  DiagLinear._event_dims Scenario.bijector = 3.
Proof.
  split.
  - split; reflexivity.
  - apply (DiagLinear_rebuild_from_diag Scenario.diag Scenario.bijector);
      reflexivity.
Defined.

(** * The round trip in floating point *)

(** ** Accumulation of rounding errors *)

Section RoundingErrors.

Open Scope R_scope.

Variable u : R.
Hypothesis Hu : 0 <= u.









End RoundingErrors.


(** ** Rounded operations on a batch of vectors *)


Section RoundedConstructed.

Variable u : R.
Hypothesis Hu : (0 <= u)%R.

Variable diag : PyArray.
Variable b : DiagLinear.t.
Hypothesis Hinit : DiagLinear.__init__ diag = Ok b.
Hypothesis Hwf : Jnp.well_formed (ob_val diag).

Variable batch : list nat.

Let dv : list R := Jnp.data (ob_val diag).
Let ts : list R := Jnp.tile dv (Jnp.numel batch).







End RoundedConstructed.


(** ** The claim, as the runtime can keep it *)



(** ** Where the claim fails *)


(** In range, binary32 keeps the round trip: the diagonal [1e-5] and the
    input [1e30]. *)
Lemma binary32_round_trip_in_range :
  Binary32.allclose Binary32.f1e_5
    (Binary32.inverse [Binary32.f1e_5]
       (Binary32.forward [Binary32.f1e_5] [Binary32.f1e30]))
    [Binary32.f1e30] = true.
Proof. vm_compute. reflexivity. Qed.
